(** * TabbyAgent: the client-side agent of the Tabby completion service

    A shallow embedding of [clients/tabby-agent/src/TabbyAgent.ts]:
    the status state machine driven by the outcome of every API call,
    the configuration update path, the completion request path (cache
    lookup, context windowing, blank-prefix short-circuit) and the
    reconnect timer.

    Conventions.
    - JavaScript values that travel through [deepmerge] (the agent
      configuration and the partial configurations merged into it) are
      JSON-like trees, [JValue]; an object is an association list in
      insertion order.
    - The agent is a record holding the fields of the class; what it does
      to the outside world (events emitted, requests sent, clients built)
      is appended to the field [trace].
    - An asynchronous method is modelled by its sequential run: the
      outcome of the request it awaits is an argument of the function.
    - Diagnostic logging ([this.logger.debug], [this.logger.error]) is
      left out. *)

From Stdlib Require Import String Ascii ZArith Bool Lia Arith List.
Import ListNotations.

Local Open Scope string_scope.
Local Open Scope list_scope.
Local Open Scope Z_scope.

Set Implicit Arguments.
Set Warnings "-register-all".

(* ================================================================== *)
(** ** JavaScript values *)

Module Js.

(** JSON-like values.  Numbers are integers: the configuration and the
    HTTP status codes hold nothing else. *)
Inductive JValue : Type :=
| JUndefined
| JNull
| JBool (b : bool)
| JNum (n : Z)
| JStr (s : string)
| JArr (items : list JValue)
| JObj (fields : list (string * JValue)).

Definition JFields : Type := list (string * JValue).

(** [key in object] and [object[key]] on the fields of an object. *)
Fixpoint getField (fs : JFields) (k : string) : option JValue :=
  match fs with
  | [] => None
  | (k', v) :: rest => if String.eqb k k' then Some v else getField rest k
  end.


(** [object[key] = v]: an existing key keeps its place, a new key goes
    last. *)
Fixpoint setField (fs : JFields) (k : string) (v : JValue) : JFields :=
  match fs with
  | [] => [(k, v)]
  | (k', v') :: rest =>
      if String.eqb k k' then (k', v) :: rest
      else (k', v') :: setField rest k v
  end.

(** Property access [v.k]; [undefined] when [v] has no such property. *)
Definition prop (v : JValue) (k : string) : JValue :=
  match v with
  | JObj fs => match getField fs k with Some x => x | None => JUndefined end
  | _ => JUndefined
  end.

(** Structural equality of values, field order included. *)
Fixpoint jvalue_eqb (a b : JValue) {struct a} : bool :=
  match a, b with
  | JUndefined, JUndefined => true
  | JNull, JNull => true
  | JBool x, JBool y => Bool.eqb x y
  | JNum x, JNum y => Z.eqb x y
  | JStr x, JStr y => String.eqb x y
  | JArr xs, JArr ys =>
      (fix items_eqb (xs ys : list JValue) {struct xs} : bool :=
         match xs, ys with
         | [], [] => true
         | x :: xs', y :: ys' => jvalue_eqb x y && items_eqb xs' ys'
         | _, _ => false
         end) xs ys
  | JObj xs, JObj ys =>
      (fix fields_eqb (xs ys : JFields) {struct xs} : bool :=
         match xs, ys with
         | [], [] => true
         | (k, x) :: xs', (k', y) :: ys' =>
             String.eqb k k' && jvalue_eqb x y && fields_eqb xs' ys'
         | _, _ => false
         end) xs ys
  | _, _ => false
  end.



End Js.
Export Js.

(* ================================================================== *)
(** ** deepmerge *)

Module DeepMerge.

(** [updateConfig] calls [deepMerge(this.config, config)] with no
    options argument (TabbyAgent.ts, line 155), so the defaults of the
    [deepmerge] package apply: [isMergeableObject] as above and
    [defaultArrayMerge], which is [target.concat(source)].

    [mergeValue t sv] is the value [mergeObject] stores under a key of
    the source, [t] being the target's value under that key when the
    target has the key:
    - the key is on the target and the source value is mergeable:
      [deepmerge(target[key], source[key])], that is, the source value
      when exactly one of both is an array, the concatenation when
      both are arrays, [mergeObject] otherwise;
    - else a clone of the source value.
    [mergeFields dest sfs] is the loop over the keys of the source,
    [dest] starting as the (cloned) fields of the target.  A clone of a
    JSON-like value is the value; keys inherited from [Object.prototype],
    which the package skips, are not keys of these objects. *)
Fixpoint mergeValue (t : option JValue) (sv : JValue) {struct sv} : JValue :=
  match sv with
  | JArr ys =>
      match t with
      | Some (JArr xs) => JArr (xs ++ ys)
      | _ => sv
      end
  | JObj sfs =>
      match t with
      | None => sv
      | Some (JArr _) => sv
      | Some tv =>
          let tfs := match tv with JObj tfs => tfs | _ => [] end in
          JObj ((fix mergeFields (dest : JFields) (sfs : JFields)
                   {struct sfs} : JFields :=
                   match sfs with
                   | [] => dest
                   | (k, v) :: rest =>
                       mergeFields
                         (setField dest k (mergeValue (getField tfs k) v))
                         rest
                   end) tfs sfs)
      end
  | _ => sv
  end.

Fixpoint mergeFields (tfs : JFields) (dest : JFields) (sfs : JFields)
  : JFields :=
  match sfs with
  | [] => dest
  | (k, v) :: rest =>
      mergeFields tfs (setField dest k (mergeValue (getField tfs k) v)) rest
  end.

(** [mergeObject(target, source)] for an object [source]. *)
Definition mergeObject (target : JValue) (sfs : JFields) : JValue :=
  let tfs := match target with JObj tfs => tfs | _ => [] end in
  JObj (mergeFields tfs tfs sfs).

(** [deepmerge(target, source)] where [source] is an object: a partial
    configuration is one.  An array target and an object source do not
    match, and the source is returned. *)
Definition deepMerge (target : JValue) (source : JFields) : JValue :=
  match target with
  | JArr _ => JObj source
  | _ => mergeObject target source
  end.

End DeepMerge.
Export DeepMerge.

(* ================================================================== *)
(** ** Strings and the helpers of [./utils] *)

Module Utils.

(** The text of a document: a sequence of characters. *)
Definition Text : Type := list ascii.

Definition newline : ascii := ascii_of_nat 10.

(** An index argument of [String.prototype.slice] and of
    [Array.prototype.slice]: a negative index counts from the end, and
    the result is clamped to [0 .. len]. *)
Definition sliceIndex (len : nat) (i : Z) : nat :=
  if i <? 0 then Z.to_nat (Z.max (Z.of_nat len + i) 0)
  else Z.to_nat (Z.min i (Z.of_nat len)).

(** [s.slice(start, end)] and [s.slice(start)]. *)
Definition slice {A} (s : list A) (start stop : Z) : list A :=
  let a := sliceIndex (List.length s) start in
  let b := sliceIndex (List.length s) stop in
  firstn (b - a)%nat (skipn a s).

Definition sliceFrom {A} (s : list A) (start : Z) : list A :=
  skipn (sliceIndex (List.length s) start) s.

(** [lines.join("")]. *)
Definition join (lines : list Text) : Text := concat lines.

(** Modelled from the spec: [splitLines] of [./utils], which is not
    among the sources.  The spec: line splitting preserves line-ending
    characters, so that the segments can be concatenated losslessly.
    A line ends with its line feed (a carriage return before it stays
    in the line); the last line may have none; there is no empty
    line. *)
Fixpoint splitLines (input : Text) : list Text :=
  match input with
  | [] => []
  | c :: rest =>
      if Ascii.eqb c newline then [c] :: splitLines rest
      else match splitLines rest with
           | [] => [[c]]
           | line :: lines => (c :: line) :: lines
           end
  end.

Definition isWhitespace (c : ascii) : bool :=
  let n := nat_of_ascii c in
  ((9 <=? n) && (n <=? 13) || (n =? 32))%nat.

(** Modelled from the spec: [isBlank] of [./utils], which is not among
    the sources.  The spec: a blank string is empty or holds only
    whitespace. *)
Definition isBlank (input : Text) : bool := forallb isWhitespace input.

End Utils.
Export Utils.

(* ================================================================== *)
(** ** Requests, responses and the completion cache *)

Module Completion.

(** The fields of a completion request the agent reads. *)
Record CompletionRequest : Type := {
  language : string;
  text : Text;
  position : Z
}.

Record Choice : Type := { index : Z; choiceText : string }.

Record CompletionResponse : Type := {
  id : string;
  choices : list Choice
}.

Record Segments : Type := { prefix : Text; suffix : Text }.

Definition text_eqb (a b : Text) : bool :=
  if list_eq_dec ascii_dec a b then true else false.

(** Modelled from the spec: [CompletionCache] of [./CompletionCache],
    which is not among the sources.  The spec: the cache maps a
    deterministic fingerprint derived from (text, position, language)
    to the last response computed for it, and is bounded,
    most-recent-wins.  The fingerprint is the triple itself; the
    entries are kept newest first, and a store keeps at most [bound]
    older entries behind the new one. *)
Definition Fingerprint : Type := (Text * Z * string)%type.

Definition fingerprint (r : CompletionRequest) : Fingerprint :=
  (text r, position r, language r).

Definition fingerprint_eqb (a b : Fingerprint) : bool :=
  let '(t1, p1, l1) := a in
  let '(t2, p2, l2) := b in
  text_eqb t1 t2 && Z.eqb p1 p2 && String.eqb l1 l2.

Definition CompletionCache : Type :=
  list (Fingerprint * CompletionResponse).

Fixpoint cache_get (c : CompletionCache) (key : CompletionRequest)
  : option CompletionResponse :=
  match c with
  | [] => None
  | (f, v) :: rest =>
      if fingerprint_eqb (fingerprint key) f then Some v
      else cache_get rest key
  end.

Definition cache_has (c : CompletionCache) (key : CompletionRequest) : bool :=
  match cache_get c key with Some _ => true | None => false end.

Definition cache_set (bound : nat) (c : CompletionCache)
  (key : CompletionRequest) (value : CompletionResponse) : CompletionCache :=
  (fingerprint key, value)
    :: firstn bound
         (filter (fun e => negb (fingerprint_eqb (fingerprint key) (fst e))) c).

End Completion.
Export Completion.

(* ================================================================== *)
(** ** The agent *)

Module Agent.

Inductive AgentStatus : Type :=
| notInitialized
| ready
| disconnected
| unauthorized.

Definition status_eqb (a b : AgentStatus) : bool :=
  match a, b with
  | notInitialized, notInitialized
  | ready, ready
  | disconnected, disconnected
  | unauthorized, unauthorized => true
  | _, _ => false
  end.

(** What a rejected API promise carries, as far as [callApi] looks at
    it: the truth value of [error.isCancelled], [error.name] and
    [error.status]. *)
Record ApiFailure : Type := {
  isCancelled : bool;
  name : string;
  errorStatus : option Z
}.

(** How the promise of an API call settles. *)
Inductive Outcome (R : Type) : Type :=
| fulfilled (response : R)
| rejected (error : ApiFailure).
Arguments fulfilled {R} response.
Arguments rejected {R} error.

Record Auth : Type := {
  endpoint : JValue;
  token : option string;
  user : option string
}.

(** [new TabbyApi({ BASE, TOKEN })]. *)
Record TabbyApi : Type := { BASE : JValue; TOKEN : option string }.

(** The operations of [api.v1] the agent calls, with their request. *)
Inductive ApiCall : Type :=
| health
| completion (lang : string) (segments : Segments) (usr : option string)
| event (request : JValue).

Inductive AgentEvent : Type :=
| statusChanged (s : AgentStatus)
| configUpdated (config : JValue).

(** What the agent does to its collaborators, in order. *)
Inductive Effect : Type :=
| Emit (e : AgentEvent)
| Request (client : TabbyApi) (call : ApiCall)
| CancelRequest (call : ApiCall)
| NewTabbyApi (client : TabbyApi)
| AuthCreate (ep : JValue)
| AuthRequestToken
| AuthReset
| UsageEvent (eventName : string)
| SetInterval (ms : Z).

(** The fields of the class, the two settings [applyConfig] writes
    into its collaborators ([logger.level] of all loggers and
    [anonymousUsageLogger.disabled]), the number of identifiers drawn
    from [uuid], and the trace of effects (oldest first).
    [tryingConnectTimer] holds the period of the interval timer that is
    armed, [None] standing for no timer. *)
Record TabbyAgent : Type := mkAgent {
  config : JValue;
  status : AgentStatus;
  api : TabbyApi;
  auth : Auth;
  completionCache : CompletionCache;
  tryingConnectTimer : option Z;
  loggerLevel : JValue;
  usageDisabled : JValue;
  uuidDrawn : nat;
  trace : list Effect
}.

Definition set_config (a : TabbyAgent) (c : JValue) : TabbyAgent :=
  mkAgent c (status a) (api a) (auth a) (completionCache a)
    (tryingConnectTimer a) (loggerLevel a) (usageDisabled a) (uuidDrawn a)
    (trace a).

Definition set_status (a : TabbyAgent) (s : AgentStatus) : TabbyAgent :=
  mkAgent (config a) s (api a) (auth a) (completionCache a)
    (tryingConnectTimer a) (loggerLevel a) (usageDisabled a) (uuidDrawn a)
    (trace a).

Definition set_api (a : TabbyAgent) (x : TabbyApi) : TabbyAgent :=
  mkAgent (config a) (status a) x (auth a) (completionCache a)
    (tryingConnectTimer a) (loggerLevel a) (usageDisabled a) (uuidDrawn a)
    (trace a).

Definition set_auth (a : TabbyAgent) (x : Auth) : TabbyAgent :=
  mkAgent (config a) (status a) (api a) x (completionCache a)
    (tryingConnectTimer a) (loggerLevel a) (usageDisabled a) (uuidDrawn a)
    (trace a).

Definition set_completionCache (a : TabbyAgent) (c : CompletionCache)
  : TabbyAgent :=
  mkAgent (config a) (status a) (api a) (auth a) c
    (tryingConnectTimer a) (loggerLevel a) (usageDisabled a) (uuidDrawn a)
    (trace a).

Definition set_loggerLevel (a : TabbyAgent) (l : JValue) : TabbyAgent :=
  mkAgent (config a) (status a) (api a) (auth a) (completionCache a)
    (tryingConnectTimer a) l (usageDisabled a) (uuidDrawn a) (trace a).

Definition set_usageDisabled (a : TabbyAgent) (d : JValue) : TabbyAgent :=
  mkAgent (config a) (status a) (api a) (auth a) (completionCache a)
    (tryingConnectTimer a) (loggerLevel a) d (uuidDrawn a) (trace a).

Definition draw_uuid (a : TabbyAgent) : TabbyAgent :=
  mkAgent (config a) (status a) (api a) (auth a) (completionCache a)
    (tryingConnectTimer a) (loggerLevel a) (usageDisabled a)
    (S (uuidDrawn a)) (trace a).

Definition perform (a : TabbyAgent) (e : Effect) : TabbyAgent :=
  mkAgent (config a) (status a) (api a) (auth a) (completionCache a)
    (tryingConnectTimer a) (loggerLevel a) (usageDisabled a) (uuidDrawn a)
    (trace a ++ [e]).

(** [static readonly tryConnectInterval = 1000 * 30], in
    milliseconds. *)
Definition tryConnectInterval : Z := 1000 * 30.

(** [changeStatus]: a transition to the current status does nothing;
    any other one is followed by a "statusChanged" event. *)
Definition changeStatus (a : TabbyAgent) (s : AgentStatus) : TabbyAgent :=
  if negb (status_eqb (status a) s)
  then perform (set_status a s) (Emit (statusChanged s))
  else a.

(** [[401, 403, 405].indexOf(error.status) !== -1]. *)
Definition isAuthStatus (code : option Z) : bool :=
  match code with
  | Some n => existsb (Z.eqb n) [401; 403; 405]
  | None => false
  end.

(** [callApi], first half: the request leaves with the current
    client. *)
Definition callApi_send (a : TabbyAgent) (call : ApiCall) : TabbyAgent :=
  perform a (Request (api a) call).

(** [callApi], second half: the [then] and [catch] handlers run when
    the promise settles.  The response is returned and the error thrown
    again, so the outcome itself goes through unchanged. *)
Definition callApi_settled {R} (a : TabbyAgent) (o : Outcome R) : TabbyAgent :=
  match o with
  | fulfilled _ => changeStatus a ready
  | rejected error =>
      if isCancelled error then a
      else if String.eqb (name error) "ApiError"
              && isAuthStatus (errorStatus error)
      then changeStatus a unauthorized
      else if String.eqb (name error) "ApiError"
      then changeStatus a disconnected
      else changeStatus a disconnected
  end.

Definition callApi {R} (a : TabbyAgent) (call : ApiCall) (o : Outcome R)
  : Outcome R * TabbyAgent :=
  (o, callApi_settled (callApi_send a call) o).

(** [healthCheck]: [callApi] on [health], with [.catch(() => {})]: the
    promise it returns never rejects. *)
Definition healthCheck (a : TabbyAgent) (o : Outcome JValue)
  : Outcome JValue * TabbyAgent :=
  let '(r, a') := callApi a health o in
  (match r with
   | fulfilled v => fulfilled v
   | rejected _ => fulfilled JUndefined
   end, a').

(** [createSegments]: at most 20 lines before the cursor and at most
    20 lines after it. *)
Definition maxLines : nat := 20.

Definition createSegments (request : CompletionRequest) : Segments :=
  let prefix := slice (text request) 0 (position request) in
  let prefixLines := splitLines prefix in
  let suffix := sliceFrom (text request) (position request) in
  let suffixLines := splitLines suffix in
  let first := Z.of_nat (List.length prefixLines) - Z.of_nat maxLines in
  {| prefix := join (sliceFrom prefixLines (Z.max first 0));
     suffix := join (slice suffixLines 0 (Z.of_nat maxLines)) |}.

(** The effects in [l] are all "statusChanged" events. *)
Definition onlyStatusEvents (l : list Effect) : Prop :=
  forall e, In e l -> exists s, e = Emit (statusChanged s).

(** A method that may throw before it returns. *)
Inductive Completed (A : Type) : Type :=
| threw (message : string)
| returned (value : A).
Arguments threw {A} message.
Arguments returned {A} value.

(** The two shapes of [CancelablePromise] the agent hands out: one
    whose executor resolved it at once and registered no cancel
    handler, and one that settles with an API call in flight and whose
    cancel handler cancels that call. *)
Inductive CancelablePromise (A : Type) : Type :=
| resolved (value : A)
| pending (call : ApiCall).
Arguments resolved {A} value.
Arguments pending {A} call.

(** [promise.cancel()]. *)
Definition cancel {A} (a : TabbyAgent) (p : CancelablePromise A) : TabbyAgent :=
  match p with
  | resolved _ => a
  | pending call => perform a (CancelRequest call)
  end.

Record AgentInitOptions : Type := {
  options_client : option JValue;
  options_config : option JFields
}.

Section Collaborators.

(** The packages and modules the agent imports and whose code is not
    part of it: [deep-equal], [./postprocess], [Auth.create], [uuid]
    (the n-th identifier it yields), [defaultAgentConfig], and the
    bound of the completion cache. *)
Variable deepEqual : JValue -> JValue -> bool.
Variable postprocess :
  CompletionRequest -> CompletionResponse -> CompletionResponse.
Variable Auth_create : JValue -> Auth.
Variable uuid : nat -> string.
Variable defaultAgentConfig : JValue.
Variable cacheBound : nat.

Definition serverEndpoint (c : JValue) : JValue :=
  prop (prop c "server") "endpoint".

(** [applyConfig].  The configuration has the fields read here, by its
    type.  The endpoints compared by [!==] are strings, on which it is
    [jvalue_eqb] negated. *)
Definition applyConfig (a : TabbyAgent) : TabbyAgent :=
  let a1 := set_loggerLevel a (prop (prop (config a) "logs") "level") in
  let a2 :=
    set_usageDisabled a1
      (prop (prop (config a1) "anonymousUsageTracking") "disable") in
  let a3 :=
    if negb (jvalue_eqb (serverEndpoint (config a2)) (endpoint (auth a2)))
    then perform (set_auth a2 (Auth_create (serverEndpoint (config a2))))
           (AuthCreate (serverEndpoint (config a2)))
    else a2 in
  let client :=
    {| BASE := serverEndpoint (config a3); TOKEN := token (auth a3) |} in
  perform (set_api a3 client) (NewTabbyApi client).

(** The constructor followed by [create]: the timer is armed, and
    the first [applyConfig] finds no [Auth] yet, so that it creates
    one for the default endpoint. *)
Definition create : TabbyAgent :=
  let ep := serverEndpoint defaultAgentConfig in
  let au := Auth_create ep in
  let client := {| BASE := ep; TOKEN := token au |} in
  {| config := defaultAgentConfig;
     status := notInitialized;
     api := client;
     auth := au;
     completionCache := [];
     tryingConnectTimer := Some tryConnectInterval;
     loggerLevel := prop (prop defaultAgentConfig "logs") "level";
     usageDisabled :=
       prop (prop defaultAgentConfig "anonymousUsageTracking") "disable";
     uuidDrawn := 0%nat;
     trace := [SetInterval tryConnectInterval; AuthCreate ep;
               NewTabbyApi client] |}.

(** The callback of the interval timer. *)
Definition timerTick (a : TabbyAgent) (o : Outcome JValue) : TabbyAgent :=
  match status a with
  | disconnected => snd (healthCheck a o)
  | _ => a
  end.

Definition onAuthUpdated (a : TabbyAgent) (o : Outcome JValue) : TabbyAgent :=
  let client :=
    {| BASE := serverEndpoint (config a); TOKEN := token (auth a) |} in
  snd (healthCheck (perform (set_api a client) (NewTabbyApi client)) o).

(** [updateConfig]; [o] is the outcome of the health probe. *)
Definition updateConfig (a : TabbyAgent) (partial : JFields)
  (o : Outcome JValue) : bool * TabbyAgent :=
  let mergedConfig := deepMerge (config a) partial in
  let a1 :=
    if negb (deepEqual (config a) mergedConfig)
    then
      let a' := applyConfig (set_config a mergedConfig) in
      perform a' (Emit (configUpdated (config a')))
    else a in
  let a2 := snd (healthCheck a1 o) in
  (negb (status_eqb (status a2) notInitialized), a2).

(** [initialize]; the client information only reaches the loggers. *)
Definition initialize (a : TabbyAgent) (options : AgentInitOptions)
  (o : Outcome JValue) : bool * TabbyAgent :=
  let a1 :=
    match options_config options with
    | Some c => snd (updateConfig a c o)
    | None => a
    end in
  let a2 := perform a1 (UsageEvent "AgentInitialized") in
  (negb (status_eqb (status a2) notInitialized), a2).


Definition getStatus (a : TabbyAgent) : AgentStatus := status a.

(** [startAuth] and the cancel handler of the promise it returns. *)
Definition startAuth (a : TabbyAgent) (o : Outcome JValue) : TabbyAgent :=
  let a1 := snd (healthCheck a o) in
  match status a1 with
  | unauthorized => perform a1 AuthRequestToken
  | _ => a1
  end.

Definition startAuth_cancel (a : TabbyAgent) : TabbyAgent :=
  match status a with
  | unauthorized => perform a AuthReset
  | _ => a
  end.

(** [getCompletions], up to the promise it returns.  The value of a
    promise resolved from the cache is what [get] returns, which may
    be [undefined] as far as its type goes. *)
Definition getCompletions (a : TabbyAgent) (request : CompletionRequest)
  : Completed (CancelablePromise (option CompletionResponse)) * TabbyAgent :=
  match status a with
  | notInitialized => (threw "Agent is not initialized", a)
  | _ =>
      if cache_has (completionCache a) request
      then (returned (resolved (cache_get (completionCache a) request)), a)
      else
        let segments := createSegments request in
        if isBlank (prefix segments)
        then
          (returned
             (resolved
                (Some {| id := "agent-" ++ uuid (uuidDrawn a);
                         choices := [] |})),
           draw_uuid a)
        else
          let call :=
            completion (language request) segments (user (auth a)) in
          (returned (pending call), callApi_send a call)
  end.

(** [getCompletions], when the completion call settles: the handlers
    of [callApi], then [postprocess], then the store into the
    cache. *)
Definition getCompletions_settled (a : TabbyAgent)
  (request : CompletionRequest) (o : Outcome CompletionResponse)
  : Outcome CompletionResponse * TabbyAgent :=
  let a1 := callApi_settled a o in
  match o with
  | fulfilled response =>
      let response' := postprocess request response in
      (fulfilled response',
       set_completionCache a1
         (cache_set cacheBound (completionCache a1) request response'))
  | rejected error => (rejected error, a1)
  end.

(** [postEvent], up to the promise it returns. *)
Definition postEvent (a : TabbyAgent) (request : JValue)
  : Completed (CancelablePromise bool) * TabbyAgent :=
  match status a with
  | notInitialized => (threw "Agent is not initialized", a)
  | _ => (returned (pending (event request)), callApi_send a (event request))
  end.

(** Everything that can happen to an agent: a method is called, a
    promise it handed out is cancelled, a call in flight settles, the
    timer fires, the [Auth] reports an update. *)
Inductive Step : Type :=
| do_initialize (options : AgentInitOptions) (o : Outcome JValue)
| do_updateConfig (partial : JFields) (o : Outcome JValue)
| do_getConfig
| do_getStatus
| do_startAuth (o : Outcome JValue)
| do_startAuth_cancel
| do_getCompletions (request : CompletionRequest)
| do_getCompletions_settled (request : CompletionRequest)
    (o : Outcome CompletionResponse)
| do_getCompletions_cancel
    (p : CancelablePromise (option CompletionResponse))
| do_postEvent (request : JValue)
| do_postEvent_settled (o : Outcome bool)
| do_postEvent_cancel (p : CancelablePromise bool)
| do_timerTick (o : Outcome JValue)
| do_onAuthUpdated (o : Outcome JValue).

Definition step (a : TabbyAgent) (s : Step) : TabbyAgent :=
  match s with
  | do_initialize options o => snd (initialize a options o)
  | do_updateConfig partial o => snd (updateConfig a partial o)
  | do_getConfig => a
  | do_getStatus => a
  | do_startAuth o => startAuth a o
  | do_startAuth_cancel => startAuth_cancel a
  | do_getCompletions request => snd (getCompletions a request)
  | do_getCompletions_settled request o =>
      snd (getCompletions_settled a request o)
  | do_getCompletions_cancel p => cancel a p
  | do_postEvent request => snd (postEvent a request)
  | do_postEvent_settled o => callApi_settled a o
  | do_postEvent_cancel p => cancel a p
  | do_timerTick o => timerTick a o
  | do_onAuthUpdated o => onAuthUpdated a o
  end.

Definition run (a : TabbyAgent) (steps : list Step) : TabbyAgent :=
  fold_left step steps a.

End Collaborators.

End Agent.

(* ================================================================== *)
(** ** Sample collaborators and inputs *)

Module Samples.
Import Agent.

Definition sampleConfig : JValue :=
  JObj [("server", JObj [("endpoint", JStr "http://localhost:8080")]);
        ("logs", JObj [("level", JStr "silent")]);
        ("anonymousUsageTracking", JObj [("disable", JBool false)])].

Definition sampleAuth (ep : JValue) : Auth :=
  {| endpoint := ep; token := None; user := None |}.

Definition samplePostprocess (_ : CompletionRequest) (r : CompletionResponse)
  : CompletionResponse := r.

Definition sampleUuid (n : nat) : string :=
  String (ascii_of_nat (48 + n)) EmptyString.

(** A freshly created agent, with structural equality for
    [deep-equal]. *)
Definition freshAgent : TabbyAgent := create sampleAuth sampleConfig.

Definition sampleUpdateConfig :=
  updateConfig jvalue_eqb sampleAuth.

Definition sampleGetCompletions := getCompletions sampleUuid.

Definition sampleSettled := getCompletions_settled samplePostprocess 9.

Definition sampleStep :=
  step jvalue_eqb samplePostprocess sampleAuth sampleUuid 9.

Definition readyAgent : TabbyAgent := set_status freshAgent ready.

Definition disconnectedAgent : TabbyAgent := set_status freshAgent disconnected.

Definition textOf (s : string) : Text := list_ascii_of_string s.

Definition sampleRequest : CompletionRequest :=
  {| language := "python";
     text := textOf "def f():" ++ [newline]
               ++ textOf "    return 1" ++ [newline];
     position := 13 |}.

Definition blankRequest : CompletionRequest :=
  {| language := "python";
     text := textOf "  " ++ [newline] ++ textOf "  x = 1";
     position := 4 |}.

Definition sampleResponse : CompletionResponse :=
  {| id := "cmpl-1"; choices := [{| index := 0; choiceText := "return 1" |}] |}.

Definition samePartial : JFields :=
  [("logs", JObj [("level", JStr "silent")])].



Definition otherEndpoint : JFields :=
  [("server", JObj [("endpoint", JStr "http://tabby:8080")])].

(** Twenty-five lines [x], the cursor after the twenty-second. *)
Definition lineX : Text := textOf "x" ++ [newline].

Definition longRequest : CompletionRequest :=
  {| language := "python";
     text := concat (repeat lineX 25);
     position := 44 |}.

Definition error401 : ApiFailure :=
  {| isCancelled := false; name := "ApiError"; errorStatus := Some 401 |}.

Definition error500 : ApiFailure :=
  {| isCancelled := false; name := "ApiError"; errorStatus := Some 500 |}.

Definition errorNetwork : ApiFailure :=
  {| isCancelled := false; name := "TypeError"; errorStatus := None |}.

Definition errorCancelled : ApiFailure :=
  {| isCancelled := true; name := "CancelError"; errorStatus := None |}.

End Samples.

(* ================================================================== *)
(** ** What an observer of the agent sees *)

Module Observations.
Import Agent Samples.

(** The status the subscribers of "statusChanged" were last told;
    [notInitialized] when no such event was emitted. *)
Definition reportedStatus (t : list Effect) : AgentStatus :=
  fold_left
    (fun s e => match e with Emit (statusChanged s') => s' | _ => s end)
    t notInitialized.


(** The four branches of the handlers of [callApi], in the order of the
    [if] chain. *)
Inductive OutcomeClass : Type :=
| succeeded
| cancelled
| authRejected
| otherFailure.

Definition classify {R} (o : Outcome R) : OutcomeClass :=
  match o with
  | fulfilled _ => succeeded
  | rejected error =>
      if isCancelled error then cancelled
      else if String.eqb (name error) "ApiError"
              && isAuthStatus (errorStatus error)
      then authRejected
      else otherFailure
  end.

(** The status each branch asks [changeStatus] for; the branch of a
    cancelled call asks for none. *)
Definition transition (s : AgentStatus) (c : OutcomeClass) : AgentStatus :=
  match c with
  | succeeded => ready
  | cancelled => s
  | authRejected => unauthorized
  | otherFailure => disconnected
  end.

(** The outcome a step brings to the handlers of [callApi], when it
    brings one: [initialize] without a configuration sends nothing, and
    so do the methods that only start a call or cancel one.  For a tick
    it is the outcome of the probe the tick makes when it makes one. *)
Definition delivered (s : Step) : option OutcomeClass :=
  match s with
  | do_initialize options o =>
      match options_config options with
      | Some _ => Some (classify o)
      | None => None
      end
  | do_updateConfig _ o => Some (classify o)
  | do_startAuth o => Some (classify o)
  | do_getCompletions_settled _ o => Some (classify o)
  | do_postEvent_settled o => Some (classify o)
  | do_timerTick o => Some (classify o)
  | do_onAuthUpdated o => Some (classify o)
  | _ => None
  end.

(** The steps that store into the completion cache. *)
Definition storesCompletion (s : Step) : bool :=
  match s with
  | do_getCompletions_settled _ (fulfilled _) => true
  | _ => false
  end.


Definition unauthorizedAgent : TabbyAgent := set_status freshAgent unauthorized.

Definition noOptions : AgentInitOptions :=
  {| options_client := Some (JStr "vscode"); options_config := None |}.

Definition sampleInitialize := initialize jvalue_eqb sampleAuth.

Definition sampleRun :=
  run jvalue_eqb samplePostprocess sampleAuth sampleUuid 9.

(** A session: configure, lose the server, reconnect on a tick, complete. *)
Definition sampleSession : list Step :=
  [do_updateConfig otherEndpoint (rejected errorNetwork);
   do_timerTick (fulfilled JNull);
   do_getCompletions sampleRequest;
   do_getCompletions_settled sampleRequest (fulfilled sampleResponse);
   do_getCompletions_settled sampleRequest (rejected error401)].

Definition sampleEvent : JValue :=
  JObj [("type", JStr "select"); ("completion_id", JStr "cmpl-1")].


End Observations.

(* ================================================================== *)
(** ** The status state machine *)

Module StatusMachine.
Import Agent Samples.

Lemma status_eqb_eq (a b : AgentStatus) : status_eqb a b = true <-> a = b.
Proof. destruct a, b; simpl; split; congruence. Qed.

Lemma status_eqb_refl (s : AgentStatus) : status_eqb s s = true.
Proof. now destruct s. Qed.

Lemma changeStatus_status (a : TabbyAgent) (s : AgentStatus) :
  status (changeStatus a s) = s.
Proof.
  unfold changeStatus.
  destruct (status_eqb (status a) s) eqn:E; simpl; [|reflexivity].
  now apply status_eqb_eq.
Qed.

Lemma isAuthStatus_spec (code : option Z) :
  isAuthStatus code = true <->
  exists n, code = Some n /\ In n [401; 403; 405].
Proof.
  unfold isAuthStatus. split.
  - destruct code as [n|]; [|discriminate].
    intros H. exists n. split; [reflexivity|].
    apply existsb_exists in H. destruct H as [m [Hin Hm]].
    apply Z.eqb_eq in Hm. now subst m.
  - intros [n [-> Hin]]. apply existsb_exists.
    exists n. split; [assumption | apply Z.eqb_refl].
Qed.

Lemma callApi_send_status (a : TabbyAgent) (call : ApiCall) :
  status (callApi_send a call) = status a.
Proof. reflexivity. Qed.

(** C1.  The transition rule applied when a wrapped API call settles:
    a response sets the status to ready; a failure flagged as
    cancelled leaves the status as it was; a failure that is not
    cancelled, is named ApiError and has status code 401, 403 or 405
    sets it to unauthorized; any other failure that is not cancelled
    sets it to disconnected. *)
Theorem callApi_transition_rule
  (R : Type) (a : TabbyAgent) (call : ApiCall) (o : Outcome R) :
  let a' := snd (callApi a call o) in
  (forall r, o = fulfilled r -> status a' = ready) /\
  (forall e, o = rejected e -> isCancelled e = true ->
             status a' = status a) /\
  (forall e n, o = rejected e -> isCancelled e = false ->
               name e = "ApiError" -> errorStatus e = Some n ->
               In n [401; 403; 405] ->
               status a' = unauthorized) /\
  (forall e, o = rejected e -> isCancelled e = false ->
             ~ (name e = "ApiError" /\
                exists n, errorStatus e = Some n /\ In n [401; 403; 405]) ->
             status a' = disconnected).
Proof.
  unfold callApi; cbn [snd]. repeat split.
  - intros r ->. apply changeStatus_status.
  - intros e -> Hc. cbn. now rewrite Hc.
  - intros e n -> Hc Hn Hs Hin. cbn. rewrite Hc, Hn, String.eqb_refl.
    assert (isAuthStatus (errorStatus e) = true) as ->
        by (apply isAuthStatus_spec; eauto).
    apply changeStatus_status.
  - intros e -> Hc Hnot. cbn. rewrite Hc.
    destruct (String.eqb (name e) "ApiError") eqn:En;
      destruct (isAuthStatus (errorStatus e)) eqn:Ea; cbn [andb];
      try apply changeStatus_status.
    exfalso. apply Hnot. split.
    + now apply String.eqb_eq.
    + now apply isAuthStatus_spec.
Qed.

Lemma callApi_transition_rule_witness :
  status (snd (callApi freshAgent health (fulfilled JNull))) = ready /\
  status (snd (callApi readyAgent health (@rejected JValue errorCancelled)))
    = ready /\
  status (snd (callApi readyAgent health (@rejected JValue error401)))
    = unauthorized /\
  status (snd (callApi readyAgent health (@rejected JValue error500)))
    = disconnected /\
  status (snd (callApi readyAgent health (@rejected JValue errorNetwork)))
    = disconnected.
Proof.
  split; [|split; [|split; [|split]]].
  - apply (proj1 (callApi_transition_rule freshAgent health
                    (fulfilled JNull)) JNull eq_refl).
  - apply (proj1 (proj2 (callApi_transition_rule readyAgent health
                           (@rejected JValue errorCancelled)))
             errorCancelled eq_refl eq_refl).
  - apply (proj1 (proj2 (proj2 (callApi_transition_rule readyAgent health
                                  (@rejected JValue error401))))
             error401 401 eq_refl eq_refl eq_refl eq_refl).
    simpl; tauto.
  - apply (proj2 (proj2 (proj2 (callApi_transition_rule readyAgent health
                                  (@rejected JValue error500))))
             error500 eq_refl eq_refl).
    intros [_ [n [Hn Hin]]]. injection Hn as <-.
    simpl in Hin. intuition discriminate.
  - apply (proj2 (proj2 (proj2 (callApi_transition_rule readyAgent health
                                  (@rejected JValue errorNetwork))))
             errorNetwork eq_refl eq_refl).
    intros [Hname _]. discriminate Hname.
Defined.

End StatusMachine.

(* ================================================================== *)
(** ** Configuration updates *)

Module ConfigStore.
Import Agent Samples StatusMachine.








(** What a status transition leaves alone. *)
Lemma changeStatus_frame (a : TabbyAgent) (s : AgentStatus) :
  config (changeStatus a s) = config a /\
  api (changeStatus a s) = api a /\
  auth (changeStatus a s) = auth a /\
  completionCache (changeStatus a s) = completionCache a /\
  tryingConnectTimer (changeStatus a s) = tryingConnectTimer a /\
  loggerLevel (changeStatus a s) = loggerLevel a /\
  usageDisabled (changeStatus a s) = usageDisabled a /\
  uuidDrawn (changeStatus a s) = uuidDrawn a /\
  exists tail,
    trace (changeStatus a s) = trace a ++ tail /\ onlyStatusEvents tail.
Proof.
  unfold changeStatus.
  destruct (negb (status_eqb (status a) s)); simpl; repeat split.
  - exists [Emit (statusChanged s)]. split; [reflexivity|].
    intros e [<-|[]]. now exists s.
  - exists []. split; [now rewrite app_nil_r|]. intros e [].
Qed.

Lemma callApi_settled_frame (R : Type) (a : TabbyAgent) (o : Outcome R) :
  config (callApi_settled a o) = config a /\
  api (callApi_settled a o) = api a /\
  auth (callApi_settled a o) = auth a /\
  completionCache (callApi_settled a o) = completionCache a /\
  tryingConnectTimer (callApi_settled a o) = tryingConnectTimer a /\
  loggerLevel (callApi_settled a o) = loggerLevel a /\
  usageDisabled (callApi_settled a o) = usageDisabled a /\
  uuidDrawn (callApi_settled a o) = uuidDrawn a /\
  exists tail,
    trace (callApi_settled a o) = trace a ++ tail /\ onlyStatusEvents tail.
Proof.
  assert (Hid : exists tail,
             trace a = trace a ++ tail /\ onlyStatusEvents tail).
  { exists []. split; [now rewrite app_nil_r|]. intros e []. }
  destruct o as [r|e]; simpl.
  - apply changeStatus_frame.
  - destruct (isCancelled e); [now repeat split|].
    destruct (String.eqb (name e) "ApiError" && isAuthStatus (errorStatus e));
      [apply changeStatus_frame|].
    destruct (String.eqb (name e) "ApiError"); apply changeStatus_frame.
Qed.

(** A health probe sends the [health] request with the current client
    and changes nothing but the status; the trace grows by the request
    and the "statusChanged" event of the transition, if there is
    one. *)
Lemma healthCheck_frame (a : TabbyAgent) (o : Outcome JValue) :
  let a' := snd (healthCheck a o) in
  config a' = config a /\
  api a' = api a /\
  auth a' = auth a /\
  completionCache a' = completionCache a /\
  tryingConnectTimer a' = tryingConnectTimer a /\
  loggerLevel a' = loggerLevel a /\
  usageDisabled a' = usageDisabled a /\
  uuidDrawn a' = uuidDrawn a /\
  exists tail,
    trace a' = trace a ++ Request (api a) health :: tail /\
    onlyStatusEvents tail.
Proof.
  unfold healthCheck, callApi. cbn [snd].
  destruct (callApi_settled_frame (callApi_send a health) o)
    as (H1 & H2 & H3 & H4 & H5 & H6 & H7 & H8 & tail & Ht & Hs).
  repeat split; try assumption.
  exists tail. split; [|exact Hs].
  rewrite Ht. simpl. now rewrite <- app_assoc.
Qed.

Section Collaborators.

Variable deepEqual : JValue -> JValue -> bool.
Variable Auth_create : JValue -> Auth.

(** C2.  When merging the partial configuration into the current
    one yields a configuration deep-equal to the current one,
    [updateConfig] does what a health probe alone does: the
    configuration, the API client and the Auth are the ones held
    before, the loggers and the usage logger are not written, and the
    trace grows by the [health] request and the status notification
    of the probe only, so that no client is built, no Auth is created
    and no "configUpdated" event is emitted. *)
Theorem updateConfig_unchanged_only_probes
  (a : TabbyAgent) (partial : JFields) (o : Outcome JValue) :
  deepEqual (config a) (deepMerge (config a) partial) = true ->
  let a' := snd (updateConfig deepEqual Auth_create a partial o) in
  a' = snd (healthCheck a o) /\
  config a' = config a /\
  api a' = api a /\
  auth a' = auth a /\
  loggerLevel a' = loggerLevel a /\
  usageDisabled a' = usageDisabled a /\
  exists tail,
    trace a' = trace a ++ Request (api a) health :: tail /\
    onlyStatusEvents tail.
Proof.
  intros Heq a'.
  assert (Ha : a' = snd (healthCheck a o)).
  { subst a'. unfold updateConfig.
    rewrite Heq. reflexivity. }
  rewrite Ha.
  destruct (healthCheck_frame a o)
    as (H1 & H2 & H3 & _ & _ & H6 & H7 & _ & Ht).
  repeat split; assumption.
Qed.


End Collaborators.

(** The other branch, on a sample: a partial configuration that changes
    the endpoint has the Auth and the client rebuilt and the
    "configUpdated" event emitted before the probe. *)
Example updateConfig_changed_sample :
  let merged := deepMerge sampleConfig otherEndpoint in
  let client := {| BASE := JStr "http://tabby:8080"; TOKEN := None |} in
  serverEndpoint merged = JStr "http://tabby:8080" /\
  sampleUpdateConfig freshAgent otherEndpoint (fulfilled JNull)
  = (true,
     {| config := merged;
        status := ready;
        api := client;
        auth := sampleAuth (JStr "http://tabby:8080");
        completionCache := [];
        tryingConnectTimer := Some tryConnectInterval;
        loggerLevel := JStr "silent";
        usageDisabled := JBool false;
        uuidDrawn := 0%nat;
        trace := trace freshAgent
                   ++ [AuthCreate (JStr "http://tabby:8080");
                       NewTabbyApi client;
                       Emit (configUpdated merged);
                       Request client health;
                       Emit (statusChanged ready)] |}).
Proof. split; reflexivity. Qed.

Lemma updateConfig_unchanged_only_probes_witness :
  jvalue_eqb (config freshAgent) (deepMerge (config freshAgent) samePartial)
    = true /\
  config (snd (sampleUpdateConfig freshAgent samePartial (fulfilled JNull)))
    = config freshAgent /\
  api (snd (sampleUpdateConfig freshAgent samePartial (fulfilled JNull)))
    = api freshAgent.
Proof.
  pose proof (updateConfig_unchanged_only_probes jvalue_eqb sampleAuth
                freshAgent samePartial (fulfilled JNull) eq_refl) as H.
  split; [reflexivity|].
  split; [exact (proj1 (proj2 H)) | exact (proj1 (proj2 (proj2 H)))].
Defined.

End ConfigStore.

(* ================================================================== *)
(** ** The completion request path *)

Module RequestCoordinator.
Import Agent Samples StatusMachine ConfigStore.

(** Joining the lines of a text gives the text back. *)
Lemma splitLines_join (input : Text) : join (splitLines input) = input.
Proof.
  unfold join. induction input as [|c rest IH]; simpl; [reflexivity|].
  destruct (Ascii.eqb c newline).
  - simpl. now rewrite IH.
  - destruct (splitLines rest) as [|line lines]; simpl in *.
    + now rewrite <- IH.
    + now rewrite IH.
Qed.

Example splitLines_sample :
  splitLines (textOf "a" ++ [ascii_of_nat 13; newline] ++ textOf "b")
  = [textOf "a" ++ [ascii_of_nat 13; newline]; textOf "b"] /\
  splitLines [newline; newline] = [[newline]; [newline]] /\
  splitLines [] = [].
Proof. repeat split. Qed.

Lemma sliceIndex_in_range (len : nat) (i : Z) :
  0 <= i <= Z.of_nat len -> sliceIndex len i = Z.to_nat i.
Proof.
  intros H. unfold sliceIndex.
  destruct (Z.ltb_spec i 0); [lia|]. now rewrite Z.min_l by lia.
Qed.

Lemma sliceIndex_le (len : nat) (i : Z) : (sliceIndex len i <= len)%nat.
Proof.
  unfold sliceIndex. destruct (Z.ltb_spec i 0); lia.
Qed.

Lemma slice_from_start {A} (s : list A) (stop : Z) :
  slice s 0 stop = firstn (sliceIndex (List.length s) stop) s.
Proof.
  unfold slice. replace (sliceIndex (List.length s) 0) with 0%nat.
  - simpl. now rewrite Nat.sub_0_r.
  - unfold sliceIndex. simpl. lia.
Qed.


(** [lines.slice(Math.max(lines.length - maxLines, 0))] drops all but
    the last [maxLines] lines. *)
Lemma sliceFrom_last {A} (lines : list A) (n : nat) :
  sliceFrom lines (Z.max (Z.of_nat (List.length lines) - Z.of_nat n) 0)
  = skipn (List.length lines - n) lines.
Proof.
  unfold sliceFrom. f_equal. rewrite sliceIndex_in_range by lia. lia.
Qed.

Lemma slice_first {A} (lines : list A) (n : nat) :
  slice lines 0 (Z.of_nat n) = firstn n lines.
Proof.
  rewrite slice_from_start. unfold sliceIndex.
  destruct (Z.ltb_spec (Z.of_nat n) 0); [lia|].
  destruct (Nat.le_gt_cases n (List.length lines)).
  - f_equal. lia.
  - replace (Z.to_nat _) with (List.length lines) by lia.
    rewrite firstn_all. symmetry. apply firstn_all2. lia.
Qed.

(** The two segments, in terms of the lines of the two halves. *)
Lemma createSegments_lines (request : CompletionRequest) :
  let before := slice (text request) 0 (position request) in
  let after := sliceFrom (text request) (position request) in
  prefix (createSegments request)
    = join (skipn (List.length (splitLines before) - maxLines)
              (splitLines before)) /\
  suffix (createSegments request) = join (firstn maxLines (splitLines after)).
Proof.
  unfold createSegments; cbn [prefix suffix]. split.
  - now rewrite sliceFrom_last.
  - now rewrite slice_first.
Qed.

(** C4.  For a position inside the text, [createSegments] cuts the text
    at the position; the prefix is the last lines of the first half,
    at most 20 of them and all of them when there are fewer; the
    suffix is the first lines of the second half, likewise; and the
    text is the lines dropped before, the prefix, the suffix and the
    lines dropped after, in this order: prefix and suffix are the text
    around the cursor, with no line lost or repeated. *)
Theorem createSegments_window (request : CompletionRequest) :
  0 <= position request <= Z.of_nat (List.length (text request)) ->
  let p := Z.to_nat (position request) in
  let before := firstn p (text request) in
  let after := skipn p (text request) in
  let segments := createSegments request in
  exists droppedBefore keptBefore keptAfter droppedAfter : list Text,
    splitLines before = droppedBefore ++ keptBefore /\
    List.length keptBefore
      = Nat.min 20 (List.length (splitLines before)) /\
    prefix segments = join keptBefore /\
    splitLines after = keptAfter ++ droppedAfter /\
    List.length keptAfter = Nat.min 20 (List.length (splitLines after)) /\
    suffix segments = join keptAfter /\
    text request
      = join droppedBefore ++ prefix segments ++ suffix segments
          ++ join droppedAfter.
Proof.
  intros Hp p before after segments.
  destruct (createSegments_lines request) as [Hpre Hsuf].
  rewrite slice_from_start, sliceIndex_in_range in Hpre by exact Hp.
  unfold sliceFrom in Hsuf. rewrite sliceIndex_in_range in Hsuf by exact Hp.
  fold p in Hpre, Hsuf. fold before in Hpre. fold after in Hsuf.
  fold segments in Hpre, Hsuf.
  set (n := (List.length (splitLines before) - maxLines)%nat) in *.
  exists (firstn n (splitLines before)), (skipn n (splitLines before)),
    (firstn maxLines (splitLines after)), (skipn maxLines (splitLines after)).
  split; [symmetry; apply firstn_skipn|].
  split; [rewrite length_skipn; unfold n, maxLines; lia|].
  split; [exact Hpre|].
  split; [symmetry; apply firstn_skipn|].
  split; [rewrite length_firstn; unfold maxLines; lia|].
  split; [exact Hsuf|].
  rewrite Hpre, Hsuf. unfold join.
  rewrite <- concat_app, firstn_skipn.
  rewrite app_assoc, <- concat_app, firstn_skipn.
  fold (join (splitLines before)). fold (join (splitLines after)).
  rewrite !splitLines_join. symmetry. apply firstn_skipn.
Qed.

Example createSegments_sample :
  createSegments sampleRequest
  = {| prefix := textOf "def f():" ++ [newline] ++ textOf "    ";
       suffix := textOf "return 1" ++ [newline] |}.
Proof. reflexivity. Qed.

(** With 22 lines before the cursor and 3 after it, the first two lines
    are dropped. *)
Example createSegments_long_sample :
  createSegments longRequest
  = {| prefix := concat (repeat lineX 20); suffix := concat (repeat lineX 3) |}.
Proof. reflexivity. Qed.

Lemma createSegments_window_witness :
  0 <= position sampleRequest
    <= Z.of_nat (List.length (text sampleRequest)) /\
  exists droppedBefore droppedAfter : list Text,
    text sampleRequest
    = join droppedBefore ++ prefix (createSegments sampleRequest)
        ++ suffix (createSegments sampleRequest) ++ join droppedAfter.
Proof.
  assert (H : 0 <= position sampleRequest
              <= Z.of_nat (List.length (text sampleRequest)))
    by (simpl; lia).
  split; [exact H|].
  destruct (createSegments_window sampleRequest H)
    as (dB & kB & kA & dA & _ & _ & _ & _ & _ & _ & Htext).
  exists dB, dA. exact Htext.
Defined.

Lemma isBlank_app (s t : Text) :
  isBlank (s ++ t) = isBlank s && isBlank t.
Proof. apply forallb_app. Qed.

(** A blank first half of the text has a blank windowed prefix. *)
Lemma isBlank_prefix (request : CompletionRequest) :
  isBlank (slice (text request) 0 (position request)) = true ->
  isBlank (prefix (createSegments request)) = true.
Proof.
  destruct (createSegments_lines request) as [-> _].
  set (lines := splitLines _).
  set (n := (List.length lines - maxLines)%nat).
  intros H. rewrite <- (splitLines_join (slice _ _ _)) in H.
  fold lines in H. rewrite <- (firstn_skipn n lines) in H.
  unfold join in *. rewrite concat_app, isBlank_app in H.
  now apply andb_true_iff in H.
Qed.

Lemma text_eqb_refl (t : Text) : text_eqb t t = true.
Proof. unfold text_eqb. now destruct (list_eq_dec ascii_dec t t). Qed.

Lemma fingerprint_eqb_refl (f : Fingerprint) : fingerprint_eqb f f = true.
Proof.
  destruct f as [[t p] l]. unfold fingerprint_eqb.
  now rewrite text_eqb_refl, Z.eqb_refl, String.eqb_refl.
Qed.

(** The response just stored is the one the cache holds. *)
Lemma cache_get_set (bound : nat) (c : CompletionCache)
  (key : CompletionRequest) (value : CompletionResponse) :
  cache_get (cache_set bound c key value) key = Some value.
Proof.
  unfold cache_set. cbn [cache_get]. now rewrite fingerprint_eqb_refl.
Qed.

Section Collaborators.

Variable postprocess :
  CompletionRequest -> CompletionResponse -> CompletionResponse.
Variable uuid : nat -> string.
Variable cacheBound : nat.

(** C6.  While the status is notInitialized, [getCompletions] throws
    "Agent is not initialized" and leaves the agent as it is: no
    request is sent, no event emitted, status, configuration and
    cache keep their value; and the result is the same whatever the
    cache holds. *)
Theorem getCompletions_not_initialized
  (a : TabbyAgent) (request : CompletionRequest) :
  status a = notInitialized ->
  getCompletions uuid a request = (threw "Agent is not initialized", a) /\
  (forall c,
      getCompletions uuid (set_completionCache a c) request
      = (threw "Agent is not initialized", set_completionCache a c)).
Proof.
  intros H. unfold getCompletions. simpl. now rewrite H.
Qed.

(** A request found in the cache is answered from it, and nothing
    else happens. *)
Lemma getCompletions_cache_hit
  (a : TabbyAgent) (request : CompletionRequest) :
  status a <> notInitialized ->
  cache_has (completionCache a) request = true ->
  getCompletions uuid a request
  = (returned (resolved (cache_get (completionCache a) request)), a).
Proof.
  intros Hs Hc. unfold getCompletions. rewrite Hc.
  destruct (status a); congruence.
Qed.

(** C5.  For a request that is not in the cache and whose windowed
    prefix is blank, which is the case whenever the text up to the
    position is blank, [getCompletions] returns a promise already
    resolved with no choices and an id made of a newly drawn uuid;
    the agent only records the draw: no request is sent. *)
Theorem getCompletions_blank_prefix
  (a : TabbyAgent) (request : CompletionRequest) :
  status a <> notInitialized ->
  cache_has (completionCache a) request = false ->
  isBlank (prefix (createSegments request)) = true \/
  isBlank (slice (text request) 0 (position request)) = true ->
  fst (getCompletions uuid a request)
  = returned
      (resolved
         (Some {| id := "agent-" ++ uuid (uuidDrawn a); choices := [] |})) /\
  snd (getCompletions uuid a request) = draw_uuid a /\
  uuidDrawn (snd (getCompletions uuid a request)) = S (uuidDrawn a) /\
  trace (snd (getCompletions uuid a request)) = trace a.
Proof.
  intros Hs Hc Hb.
  assert (Hblank : isBlank (prefix (createSegments request)) = true)
    by (destruct Hb; [assumption | now apply isBlank_prefix]).
  unfold getCompletions. rewrite Hc, Hblank.
  destruct (status a); try congruence; now repeat split.
Qed.

(** C3.  Take a request that is not in the cache and has a prefix
    that is not blank.  The first [getCompletions] sends the
    completion call; when the call succeeds the post-processed
    response is stored.  A second [getCompletions] for the same
    request then returns a promise already resolved with that
    response, leaves the agent as it is (no request is sent), and
    cancelling the promise does nothing. *)
Theorem getCompletions_twice
  (a : TabbyAgent) (request : CompletionRequest)
  (response : CompletionResponse) :
  status a <> notInitialized ->
  cache_has (completionCache a) request = false ->
  isBlank (prefix (createSegments request)) = false ->
  let first := getCompletions uuid a request in
  let stored :=
    getCompletions_settled postprocess cacheBound (snd first) request
      (fulfilled response) in
  let second := getCompletions uuid (snd stored) request in
  fst first
  = returned
      (pending (completion (language request) (createSegments request)
                  (user (auth a)))) /\
  fst stored = fulfilled (postprocess request response) /\
  fst second
  = returned (resolved (Some (postprocess request response))) /\
  snd second = snd stored /\
  (forall p, fst second = returned p -> cancel (snd second) p = snd second).
Proof.
  intros Hs Hc Hb first stored second.
  assert (Hfirst : first =
            (returned (pending (completion (language request)
                                  (createSegments request) (user (auth a)))),
             callApi_send a (completion (language request)
                               (createSegments request) (user (auth a))))).
  { subst first. unfold getCompletions. rewrite Hc, Hb.
    destruct (status a); congruence. }
  assert (Hget : cache_get (completionCache (snd stored)) request
                 = Some (postprocess request response)).
  { subst stored. cbn. apply cache_get_set. }
  assert (Hsecond : second =
            (returned (resolved (Some (postprocess request response))),
             snd stored)).
  { subst second. rewrite <- Hget. apply getCompletions_cache_hit.
    - subst stored. cbn [getCompletions_settled snd callApi_settled].
      change (status (changeStatus (snd first) ready) <> notInitialized).
      rewrite changeStatus_status. discriminate.
    - unfold cache_has. now rewrite Hget. }
  rewrite Hsecond, Hfirst. cbn [fst snd].
  repeat split.
  intros p Hp. injection Hp as <-. reflexivity.
Qed.

End Collaborators.

Lemma getCompletions_not_initialized_witness :
  status freshAgent = notInitialized /\
  sampleGetCompletions freshAgent sampleRequest
  = (threw "Agent is not initialized", freshAgent).
Proof.
  split; [reflexivity|].
  exact (proj1 (getCompletions_not_initialized sampleUuid freshAgent
                  sampleRequest eq_refl)).
Defined.

Lemma getCompletions_blank_prefix_witness :
  isBlank (slice (text blankRequest) 0 (position blankRequest)) = true /\
  fst (sampleGetCompletions readyAgent blankRequest)
  = returned (resolved (Some {| id := "agent-0"; choices := [] |})) /\
  trace (snd (sampleGetCompletions readyAgent blankRequest))
  = trace readyAgent.
Proof.
  assert (Hs : status readyAgent <> notInitialized) by discriminate.
  pose proof (getCompletions_blank_prefix sampleUuid readyAgent blankRequest
                Hs eq_refl (or_intror eq_refl)) as H.
  split; [reflexivity|].
  split; [exact (proj1 H) | exact (proj2 (proj2 (proj2 H)))].
Defined.

Lemma getCompletions_twice_witness :
  isBlank (prefix (createSegments sampleRequest)) = false /\
  fst (sampleGetCompletions
         (snd (sampleSettled
                 (snd (sampleGetCompletions readyAgent sampleRequest))
                 sampleRequest (fulfilled sampleResponse)))
         sampleRequest)
  = returned (resolved (Some sampleResponse)).
Proof.
  assert (Hs : status readyAgent <> notInitialized) by discriminate.
  split; [reflexivity|].
  exact (proj1 (proj2 (proj2
           (getCompletions_twice samplePostprocess sampleUuid 9 readyAgent
              sampleRequest sampleResponse Hs eq_refl eq_refl)))).
Defined.

End RequestCoordinator.

(* ================================================================== *)
(** ** The reconnect timer *)

Module ConnectionSupervisor.
Import Agent Samples StatusMachine ConfigStore RequestCoordinator.



Lemma perform_timer (a : TabbyAgent) (e : Effect) :
  tryingConnectTimer (perform a e) = tryingConnectTimer a.
Proof. reflexivity. Qed.

Lemma healthCheck_timer (a : TabbyAgent) (o : Outcome JValue) :
  tryingConnectTimer (snd (healthCheck a o)) = tryingConnectTimer a.
Proof. apply (healthCheck_frame a o). Qed.

Lemma callApi_settled_timer (R : Type) (a : TabbyAgent) (o : Outcome R) :
  tryingConnectTimer (callApi_settled a o) = tryingConnectTimer a.
Proof. apply (callApi_settled_frame a o). Qed.

Section Collaborators.

Variable deepEqual : JValue -> JValue -> bool.
Variable postprocess :
  CompletionRequest -> CompletionResponse -> CompletionResponse.
Variable Auth_create : JValue -> Auth.
Variable uuid : nat -> string.
Variable defaultAgentConfig : JValue.
Variable cacheBound : nat.

Lemma applyConfig_timer (a : TabbyAgent) :
  tryingConnectTimer (applyConfig Auth_create a) = tryingConnectTimer a.
Proof.
  unfold applyConfig. cbn.
  now destruct (negb (jvalue_eqb _ _)).
Qed.

Lemma updateConfig_timer (a : TabbyAgent) (partial : JFields)
  (o : Outcome JValue) :
  tryingConnectTimer (snd (updateConfig deepEqual Auth_create a partial o))
  = tryingConnectTimer a.
Proof.
  unfold updateConfig. cbn [snd]. rewrite healthCheck_timer.
  destruct (negb (deepEqual _ _)); [|reflexivity].
  now rewrite perform_timer, applyConfig_timer.
Qed.

(** No step of the agent touches the timer. *)
Lemma step_timer (a : TabbyAgent) (s : Step) :
  tryingConnectTimer
    (step deepEqual postprocess Auth_create uuid cacheBound a s)
  = tryingConnectTimer a.
Proof.
  destruct s; cbn [step].
  - unfold initialize. cbn [snd]. rewrite perform_timer.
    destruct (options_config options); [apply updateConfig_timer|reflexivity].
  - apply updateConfig_timer.
  - reflexivity.
  - reflexivity.
  - unfold startAuth.
    destruct (status (snd (healthCheck a o)));
      rewrite ?perform_timer; apply healthCheck_timer.
  - unfold startAuth_cancel. now destruct (status a).
  - unfold getCompletions.
    destruct (status a); try reflexivity;
      destruct (cache_has _ _); try reflexivity;
      destruct (isBlank _); reflexivity.
  - unfold getCompletions_settled.
    destruct o; cbn [snd set_completionCache tryingConnectTimer];
      apply callApi_settled_timer.
  - now destruct p.
  - unfold postEvent. now destruct (status a).
  - apply callApi_settled_timer.
  - now destruct p.
  - unfold timerTick.
    destruct (status a); try reflexivity. apply healthCheck_timer.
  - unfold onAuthUpdated. now rewrite healthCheck_timer.
Qed.

(** C9, amended.  The timer armed when the agent is created, with a
    period of 30 seconds, is still armed after any sequence of
    method calls, cancellations, settled calls, ticks and Auth
    updates: the agent has no operation that stops it. *)
Theorem timer_never_stopped (steps : list Step) :
  tryingConnectTimer
    (run deepEqual postprocess Auth_create uuid cacheBound
       (create Auth_create defaultAgentConfig) steps)
  = Some tryConnectInterval.
Proof.
  unfold run.
  assert (H : tryingConnectTimer (create Auth_create defaultAgentConfig)
              = Some tryConnectInterval) by reflexivity.
  revert H. generalize (create Auth_create defaultAgentConfig) as a.
  induction steps as [|s rest IH]; intros a H; simpl; [exact H|].
  apply IH. now rewrite step_timer.
Qed.

End Collaborators.

(** C9, as the spec has it, fails: no step of the agent takes an armed
    timer down. *)
Lemma no_step_stops_the_timer :
  ~ exists (a : TabbyAgent) (s : Step),
      tryingConnectTimer a = Some tryConnectInterval /\
      tryingConnectTimer (sampleStep a s) = None.
Proof.
  intros (a & s & Harmed & Hstopped).
  unfold sampleStep in Hstopped. rewrite step_timer in Hstopped.
  congruence.
Qed.

End ConnectionSupervisor.

(* ================================================================== *)
(** ** Invariants of the agent over its steps *)

Module Invariants.
Import Agent Samples Observations StatusMachine ConfigStore.
Import RequestCoordinator ConnectionSupervisor.

(** Reduce the projections of an updated agent, and nothing else. *)
Ltac agent_cbn :=
  cbn [fst snd status trace config api auth completionCache
       tryingConnectTimer loggerLevel usageDisabled uuidDrawn set_status
       set_config set_api set_auth set_completionCache set_loggerLevel
       set_usageDisabled draw_uuid perform callApi_send BASE TOKEN].

(** The handlers of [callApi], by the class of the outcome. *)
Lemma callApi_settled_classify (R : Type) (a : TabbyAgent) (o : Outcome R) :
  callApi_settled a o
  = match classify o with
    | cancelled => a
    | c => changeStatus a (transition (status a) c)
    end.
Proof.
  destruct o as [r|e]; simpl; [reflexivity|].
  destruct (isCancelled e); [reflexivity|].
  destruct (String.eqb (name e) "ApiError" && isAuthStatus (errorStatus e));
    [reflexivity|].
  now destruct (String.eqb (name e) "ApiError").
Qed.

Lemma callApi_settled_status (R : Type) (a : TabbyAgent) (o : Outcome R) :
  status (callApi_settled a o) = transition (status a) (classify o).
Proof.
  rewrite callApi_settled_classify.
  destruct (classify o); try apply changeStatus_status. reflexivity.
Qed.

Lemma healthCheck_status (a : TabbyAgent) (o : Outcome JValue) :
  status (snd (healthCheck a o)) = transition (status a) (classify o).
Proof.
  unfold healthCheck, callApi. cbn [snd]. now rewrite callApi_settled_status.
Qed.

Lemma transition_initialized (s : AgentStatus) (c : OutcomeClass) :
  s <> notInitialized -> transition s c <> notInitialized.
Proof. destruct c; simpl; intros H; try discriminate. exact H. Qed.

Section StepInduction.

Variable deepEqual : JValue -> JValue -> bool.
Variable postprocess :
  CompletionRequest -> CompletionResponse -> CompletionResponse.
Variable Auth_create : JValue -> Auth.
Variable uuid : nat -> string.
Variable cacheBound : nat.

(** A property of the agent kept by the few updates the methods are made
    of is kept by every step.  The store into the cache is asked for only
    when the step makes one. *)
Variable P : TabbyAgent -> Prop.

Hypothesis P_changeStatus :
  forall a s, s <> notInitialized -> P a -> P (changeStatus a s).
Hypothesis P_send : forall a call, P a -> P (callApi_send a call).
Hypothesis P_cancel : forall a call, P a -> P (perform a (CancelRequest call)).
Hypothesis P_usage : forall a n, P a -> P (perform a (UsageEvent n)).
Hypothesis P_token : forall a, P a -> P (perform a AuthRequestToken).
Hypothesis P_reset : forall a, P a -> P (perform a AuthReset).
Hypothesis P_uuid : forall a, P a -> P (draw_uuid a).
Hypothesis P_client :
  forall a, P a ->
    P (perform
         (set_api a {| BASE := serverEndpoint (config a);
                       TOKEN := token (auth a) |})
         (NewTabbyApi {| BASE := serverEndpoint (config a);
                         TOKEN := token (auth a) |})).
Hypothesis P_config :
  forall a merged, P a ->
    P (perform (applyConfig Auth_create (set_config a merged))
         (Emit (configUpdated merged))).

Lemma applyConfig_config (a : TabbyAgent) :
  config (applyConfig Auth_create a) = config a.
Proof. unfold applyConfig. cbn. now destruct (negb (jvalue_eqb _ _)). Qed.

Lemma applyConfig_status (a : TabbyAgent) :
  status (applyConfig Auth_create a) = status a.
Proof. unfold applyConfig. cbn. now destruct (negb (jvalue_eqb _ _)). Qed.

Lemma P_callApi_settled (R : Type) (a : TabbyAgent) (o : Outcome R) :
  P a -> P (callApi_settled a o).
Proof.
  intros H. rewrite callApi_settled_classify.
  destruct (classify o); try exact H;
    apply P_changeStatus; try exact H; discriminate.
Qed.

Lemma P_healthCheck (a : TabbyAgent) (o : Outcome JValue) :
  P a -> P (snd (healthCheck a o)).
Proof.
  intros H. unfold healthCheck, callApi. cbn [snd].
  apply P_callApi_settled, P_send, H.
Qed.

Lemma P_updateConfig (a : TabbyAgent) (partial : JFields) (o : Outcome JValue) :
  P a -> P (snd (updateConfig deepEqual Auth_create a partial o)).
Proof.
  intros H. unfold updateConfig. cbn [snd]. apply P_healthCheck.
  destruct (negb (deepEqual _ _)); [|exact H].
  rewrite applyConfig_config. apply P_config, H.
Qed.

Lemma step_preserves (a : TabbyAgent) (s : Step) :
  (storesCompletion s = true ->
   forall a' c, P a' -> P (set_completionCache a' c)) ->
  P a ->
  P (step deepEqual postprocess Auth_create uuid cacheBound a s).
Proof.
  intros P_cache H. destruct s; cbn [step].
  - unfold initialize. cbn [snd]. apply P_usage.
    destruct (options_config options); [apply P_updateConfig|]; exact H.
  - apply P_updateConfig, H.
  - exact H.
  - exact H.
  - unfold startAuth. pose proof (P_healthCheck o H) as H'.
    destruct (status (snd (healthCheck a o))); try exact H'.
    apply P_token, H'.
  - unfold startAuth_cancel. destruct (status a); try exact H.
    apply P_reset, H.
  - unfold getCompletions.
    destruct (status a); try exact H;
      (destruct (cache_has _ _); [exact H|]);
      (destruct (isBlank _); cbn [snd]; [apply P_uuid | apply P_send]);
      exact H.
  - unfold getCompletions_settled. destruct o as [r|e]; cbn [snd].
    + apply (P_cache eq_refl), P_callApi_settled, H.
    + apply P_callApi_settled, H.
  - destruct p; cbn [cancel]; [exact H | apply P_cancel, H].
  - unfold postEvent. destruct (status a); cbn [snd]; try exact H;
      apply P_send, H.
  - apply P_callApi_settled, H.
  - destruct p; cbn [cancel]; [exact H | apply P_cancel, H].
  - unfold timerTick. destruct (status a); try exact H.
    apply P_healthCheck, H.
  - unfold onAuthUpdated. apply P_healthCheck, P_client, H.
Qed.

End StepInduction.

(** A property kept by every step is kept by every run. *)
Lemma run_invariant
  (deepEqual : JValue -> JValue -> bool)
  (postprocess : CompletionRequest -> CompletionResponse -> CompletionResponse)
  (Auth_create : JValue -> Auth) (uuid : nat -> string) (cacheBound : nat)
  (P : TabbyAgent -> Prop) :
  (forall a s,
      P a -> P (step deepEqual postprocess Auth_create uuid cacheBound a s)) ->
  forall steps a,
    P a -> P (run deepEqual postprocess Auth_create uuid cacheBound a steps).
Proof.
  intros Hstep. unfold run.
  induction steps as [|s rest IH]; intros a Ha; simpl; [exact Ha|].
  apply IH, Hstep, Ha.
Qed.

Lemma reportedStatus_snoc (t : list Effect) (e : Effect) :
  reportedStatus (t ++ [e])
  = match e with
    | Emit (statusChanged s) => s
    | _ => reportedStatus t
    end.
Proof.
  unfold reportedStatus. rewrite fold_left_app. simpl.
  now destruct e as [[s|c]| | | | | | | |].
Qed.



Section Collaborators.

Variable deepEqual : JValue -> JValue -> bool.
Variable postprocess :
  CompletionRequest -> CompletionResponse -> CompletionResponse.
Variable Auth_create : JValue -> Auth.
Variable uuid : nat -> string.
Variable defaultAgentConfig : JValue.
Variable cacheBound : nat.

Lemma step_reportedStatus (a : TabbyAgent) (s : Step) :
  status a = reportedStatus (trace a) ->
  status (step deepEqual postprocess Auth_create uuid cacheBound a s)
  = reportedStatus
      (trace (step deepEqual postprocess Auth_create uuid cacheBound a s)).
Proof.
  apply step_preserves
    with (P := fun a => status a = reportedStatus (trace a));
    try (intros; agent_cbn; rewrite ?reportedStatus_snoc; assumption).
  - intros a' s' _ H. unfold changeStatus.
    destruct (negb (status_eqb (status a') s')); [|exact H].
    agent_cbn. now rewrite reportedStatus_snoc.
  - intros a' merged H. agent_cbn. rewrite reportedStatus_snoc.
    rewrite applyConfig_status. unfold applyConfig. agent_cbn.
    destruct (negb (jvalue_eqb _ _)); agent_cbn;
      now rewrite ?reportedStatus_snoc.
Qed.

(** X1.  From the creation of the agent on, whatever happens, the
    status [getStatus] returns is the one carried by the last
    "statusChanged" event emitted, and notInitialized when none was
    emitted: the subscribers never hold a stale status. *)
Theorem status_is_the_last_reported (steps : list Step) :
  let a :=
    run deepEqual postprocess Auth_create uuid cacheBound
      (create Auth_create defaultAgentConfig) steps in
  getStatus a = reportedStatus (trace a).
Proof.
  cbv zeta. unfold getStatus.
  apply run_invariant with (P := fun a => status a = reportedStatus (trace a)).
  - apply step_reportedStatus.
  - reflexivity.
Qed.



Lemma step_initialized (a : TabbyAgent) (s : Step) :
  status a <> notInitialized ->
  status (step deepEqual postprocess Auth_create uuid cacheBound a s)
  <> notInitialized.
Proof.
  apply step_preserves with (P := fun a => status a <> notInitialized);
    try (intros; agent_cbn; assumption).
  - intros a' s' Hs _. now rewrite changeStatus_status.
  - intros a' merged H. agent_cbn. now rewrite applyConfig_status.
Qed.

(** X3.  An agent that has left notInitialized never returns to it,
    whatever calls fail or are cancelled afterwards. *)
Theorem notInitialized_is_never_reentered (a : TabbyAgent) (steps : list Step) :
  status a <> notInitialized ->
  status (run deepEqual postprocess Auth_create uuid cacheBound a steps)
  <> notInitialized.
Proof.
  apply run_invariant with (P := fun a => status a <> notInitialized).
  apply step_initialized.
Qed.





End Collaborators.

Lemma notInitialized_is_never_reentered_witness :
  status readyAgent <> notInitialized /\
  status (sampleRun readyAgent sampleSession) <> notInitialized.
Proof.
  assert (H : status readyAgent <> notInitialized) by discriminate.
  split; [exact H|].
  exact (notInitialized_is_never_reentered jvalue_eqb samplePostprocess
           sampleAuth sampleUuid 9 readyAgent sampleSession H).
Defined.


Section StatusOfSteps.

Variable deepEqual : JValue -> JValue -> bool.
Variable postprocess :
  CompletionRequest -> CompletionResponse -> CompletionResponse.
Variable Auth_create : JValue -> Auth.
Variable uuid : nat -> string.
Variable cacheBound : nat.

Lemma updateConfig_status (a : TabbyAgent) (partial : JFields)
  (o : Outcome JValue) :
  status (snd (updateConfig deepEqual Auth_create a partial o))
  = transition (status a) (classify o).
Proof.
  unfold updateConfig. cbn [snd]. rewrite healthCheck_status.
  destruct (negb (deepEqual _ _)); [|reflexivity].
  agent_cbn. now rewrite applyConfig_status.
Qed.

(** The status after a step, from the status before it and the outcome
    the step delivers. *)
Lemma status_after_step (a : TabbyAgent) (s : Step) :
  status (step deepEqual postprocess Auth_create uuid cacheBound a s)
  = match s, delivered s with
    | do_timerTick o, _ =>
        match status a with
        | disconnected => transition disconnected (classify o)
        | st => st
        end
    | _, Some c => transition (status a) c
    | _, None => status a
    end.
Proof.
  destruct s; cbn [step delivered].
  - unfold initialize. agent_cbn.
    destruct (options_config options); [apply updateConfig_status|reflexivity].
  - apply updateConfig_status.
  - reflexivity.
  - reflexivity.
  - unfold startAuth.
    destruct (status (snd (healthCheck a o))) eqn:E; agent_cbn;
      now rewrite <- healthCheck_status.
  - unfold startAuth_cancel.
    destruct (status a) eqn:E; agent_cbn; congruence.
  - unfold getCompletions.
    destruct (status a) eqn:E;
      try (destruct (cache_has _ _); [|destruct (isBlank _)]);
      agent_cbn; congruence.
  - unfold getCompletions_settled.
    destruct o; agent_cbn; apply callApi_settled_status.
  - now destruct p.
  - unfold postEvent. destruct (status a) eqn:E; agent_cbn; congruence.
  - apply callApi_settled_status.
  - now destruct p.
  - unfold timerTick.
    destruct (status a) eqn:E; try exact E.
    now rewrite healthCheck_status, E.
  - unfold onAuthUpdated. now rewrite healthCheck_status.
Qed.

(** X6.  A step takes the agent to ready only by delivering the
    response of an API call: the status is ready after a step only if it
    was ready before or the step brought a fulfilled outcome. *)
Theorem ready_only_after_a_response (a : TabbyAgent) (s : Step) :
  status (step deepEqual postprocess Auth_create uuid cacheBound a s) = ready ->
  status a = ready \/ delivered s = Some succeeded.
Proof.
  rewrite status_after_step.
  destruct s; cbn [delivered];
    try (destruct (options_config options));
    try (destruct (classify o); cbn [transition]);
    try (destruct (status a); cbn [transition]);
    intros H; try discriminate H; auto.
Qed.

(** X7.  A step takes the agent to unauthorized only by delivering a
    failure that is not cancelled, is named ApiError and has status 401,
    403 or 405: the status is unauthorized after a step only if it was
    before or the step brought such a failure. *)
Theorem unauthorized_only_after_a_rejection (a : TabbyAgent) (s : Step) :
  status (step deepEqual postprocess Auth_create uuid cacheBound a s)
  = unauthorized ->
  status a = unauthorized \/ delivered s = Some authRejected.
Proof.
  rewrite status_after_step.
  destruct s; cbn [delivered];
    try (destruct (options_config options));
    try (destruct (classify o); cbn [transition]);
    try (destruct (status a); cbn [transition]);
    intros H; try discriminate H; auto.
Qed.

End StatusOfSteps.

Lemma ready_only_after_a_response_witness :
  status (sampleStep freshAgent (do_updateConfig samePartial (fulfilled JNull)))
  = ready /\
  (status freshAgent = ready \/
   delivered (do_updateConfig samePartial (fulfilled JNull)) = Some succeeded).
Proof.
  assert (H : status (sampleStep freshAgent
                        (do_updateConfig samePartial (fulfilled JNull)))
              = ready) by reflexivity.
  split; [exact H|].
  exact (ready_only_after_a_response jvalue_eqb samplePostprocess sampleAuth
           sampleUuid 9 freshAgent
           (do_updateConfig samePartial (fulfilled JNull)) H).
Defined.

Lemma unauthorized_only_after_a_rejection_witness :
  status (sampleStep readyAgent (do_postEvent_settled (rejected error401)))
  = unauthorized /\
  (status readyAgent = unauthorized \/
   delivered (do_postEvent_settled (rejected error401)) = Some authRejected).
Proof.
  assert (H : status (sampleStep readyAgent
                        (do_postEvent_settled (rejected error401)))
              = unauthorized) by reflexivity.
  split; [exact H|].
  exact (unauthorized_only_after_a_rejection jvalue_eqb samplePostprocess
           sampleAuth sampleUuid 9 readyAgent
           (do_postEvent_settled (rejected error401)) H).
Defined.

(** X8.  The last call to settle wins: after two calls have settled, the
    status is the one the second outcome asks for, whatever the first
    was, unless the second call was cancelled, in which case the status
    is the one the first left. *)
Theorem last_settled_call_wins
  (R1 R2 : Type) (a : TabbyAgent) (o1 : Outcome R1) (o2 : Outcome R2) :
  (classify o2 <> cancelled ->
   status (callApi_settled (callApi_settled a o1) o2)
   = status (callApi_settled a o2)) /\
  (classify o2 = cancelled ->
   callApi_settled (callApi_settled a o1) o2 = callApi_settled a o1).
Proof.
  split.
  - intros H. rewrite !callApi_settled_status.
    destruct (classify o2); try reflexivity. now elim H.
  - intros H. rewrite (callApi_settled_classify (callApi_settled a o1) o2).
    now rewrite H.
Qed.

Lemma last_settled_call_wins_witness :
  status (callApi_settled
            (callApi_settled freshAgent (@rejected bool error401))
            (fulfilled sampleResponse))
  = status (callApi_settled freshAgent (fulfilled sampleResponse)) /\
  callApi_settled (callApi_settled freshAgent (@rejected bool error401))
    (@rejected bool errorCancelled)
  = callApi_settled freshAgent (@rejected bool error401).
Proof.
  split.
  - apply (proj1 (last_settled_call_wins freshAgent (@rejected bool error401)
                    (fulfilled sampleResponse))).
    discriminate.
  - apply (proj2 (last_settled_call_wins freshAgent (@rejected bool error401)
                    (@rejected bool errorCancelled))).
    reflexivity.
Defined.

(** X9.  When a call settles, the subscribers are told exactly what
    changes: one "statusChanged" event carrying the new status when the
    status changes, and no event when it stays as it was. *)
Theorem statusChanged_iff_status_changes
  (R : Type) (a : TabbyAgent) (o : Outcome R) :
  let a' := callApi_settled a o in
  trace a'
  = trace a
      ++ (if status_eqb (status a) (status a') then []
          else [Emit (statusChanged (status a'))]).
Proof.
  cbv zeta. rewrite callApi_settled_status, callApi_settled_classify.
  assert (Hc : forall s,
             trace (changeStatus a s)
             = trace a ++ (if status_eqb (status a) s then []
                           else [Emit (statusChanged s)])).
  { intros s. unfold changeStatus.
    destruct (status_eqb (status a) s); cbn [negb]; agent_cbn;
      [now rewrite app_nil_r | reflexivity]. }
  destruct (classify o); cbn [transition]; try apply Hc.
  now rewrite status_eqb_refl, app_nil_r.
Qed.

(** X10.  While the server stays out of reach, a tick of the timer sends
    one [health] request with the current client and changes nothing
    else: the status stays disconnected and no event is emitted. *)
Theorem timerTick_while_server_is_down (a : TabbyAgent) (o : Outcome JValue) :
  status a = disconnected ->
  classify o = otherFailure ->
  timerTick a o = perform a (Request (api a) health).
Proof.
  intros Hs Ho. unfold timerTick. rewrite Hs.
  unfold healthCheck, callApi. cbn [snd].
  rewrite callApi_settled_classify, Ho. cbn [transition].
  unfold changeStatus. agent_cbn. now rewrite Hs.
Qed.

Lemma timerTick_while_server_is_down_witness :
  timerTick disconnectedAgent (rejected errorNetwork)
  = perform disconnectedAgent (Request (api disconnectedAgent) health).
Proof.
  exact (timerTick_while_server_is_down disconnectedAgent
           (rejected errorNetwork) eq_refl eq_refl).
Defined.

(** X11.  [startAuth] probes the server first, and asks the Auth for a
    token exactly when the probe leaves the agent unauthorized: always
    after a probe rejected with 401, 403 or 405, never after a probe that
    succeeded or failed otherwise, and after a cancelled probe only when
    the agent was unauthorized already. *)
Theorem startAuth_requests_a_token (a : TabbyAgent) (o : Outcome JValue) :
  let probed := snd (healthCheck a o) in
  (classify o = authRejected ->
   startAuth a o = perform probed AuthRequestToken) /\
  (classify o = succeeded \/ classify o = otherFailure ->
   startAuth a o = probed) /\
  (classify o = cancelled ->
   startAuth a o
   = if status_eqb (status a) unauthorized
     then perform probed AuthRequestToken
     else probed).
Proof.
  cbv zeta. unfold startAuth. rewrite healthCheck_status.
  repeat split.
  - now intros ->.
  - now intros [-> | ->].
  - intros ->. cbn [transition]. now destruct (status a).
Qed.

Lemma startAuth_requests_a_token_witness :
  startAuth readyAgent (rejected error401)
  = perform (snd (healthCheck readyAgent (rejected error401)))
      AuthRequestToken /\
  startAuth unauthorizedAgent (fulfilled JNull)
  = snd (healthCheck unauthorizedAgent (fulfilled JNull)) /\
  startAuth readyAgent (rejected errorCancelled)
  = snd (healthCheck readyAgent (rejected errorCancelled)).
Proof.
  split; [|split].
  - exact (proj1 (startAuth_requests_a_token readyAgent (rejected error401))
             eq_refl).
  - exact (proj1 (proj2 (startAuth_requests_a_token unauthorizedAgent
                           (fulfilled JNull)))
             (or_introl eq_refl)).
  - exact (proj2 (proj2 (startAuth_requests_a_token readyAgent
                           (rejected errorCancelled)))
             eq_refl).
Defined.

(** X12.  [postEvent] has the guard of [getCompletions]: while the
    status is notInitialized it throws "Agent is not initialized" and
    leaves the agent as it is; otherwise it sends the [event] request
    with the current client, changes nothing else, and returns a promise
    whose cancellation cancels that request. *)
Theorem postEvent_guard (a : TabbyAgent) (request : JValue) :
  (status a = notInitialized ->
   postEvent a request = (threw "Agent is not initialized", a)) /\
  (status a <> notInitialized ->
   postEvent a request
   = (returned (pending (event request)),
      perform a (Request (api a) (event request))) /\
   forall p, fst (postEvent a request) = returned p ->
     cancel (snd (postEvent a request)) p
     = perform (snd (postEvent a request)) (CancelRequest (event request))).
Proof.
  unfold postEvent. split.
  - now intros ->.
  - intros H. destruct (status a); try congruence;
      (split; [reflexivity|]); cbn [fst snd];
      intros p Hp; injection Hp as <-; reflexivity.
Qed.

Lemma postEvent_guard_witness :
  postEvent freshAgent sampleEvent
  = (threw "Agent is not initialized", freshAgent) /\
  postEvent readyAgent sampleEvent
  = (returned (pending (event sampleEvent)),
     perform readyAgent (Request (api readyAgent) (event sampleEvent))).
Proof.
  assert (H : status readyAgent <> notInitialized) by discriminate.
  split.
  - exact (proj1 (postEvent_guard freshAgent sampleEvent) eq_refl).
  - exact (proj1 (proj2 (postEvent_guard readyAgent sampleEvent) H)).
Defined.

Section ConfigurationPath.

Variable deepEqual : JValue -> JValue -> bool.
Variable postprocess :
  CompletionRequest -> CompletionResponse -> CompletionResponse.
Variable Auth_create : JValue -> Auth.
Variable uuid : nat -> string.
Variable defaultAgentConfig : JValue.
Variable cacheBound : nat.

(** X13.  [initialize] called without a configuration sends no request
    and leaves the status as it is; it only records the
    "AgentInitialized" usage event.  On a newly created agent it
    therefore returns false, the agent staying notInitialized. *)
Theorem initialize_without_config
  (a : TabbyAgent) (client : option JValue) (o : Outcome JValue) :
  let options := {| options_client := client; options_config := None |} in
  snd (initialize deepEqual Auth_create a options o)
  = perform a (UsageEvent "AgentInitialized") /\
  (fst (initialize deepEqual Auth_create a options o) = true <->
   status a <> notInitialized) /\
  initialize deepEqual Auth_create (create Auth_create defaultAgentConfig)
    options o
  = (false,
     perform (create Auth_create defaultAgentConfig)
       (UsageEvent "AgentInitialized")).
Proof.
  cbv zeta. unfold initialize. cbn [options_config fst snd].
  agent_cbn. repeat split.
  - intros H Hs. rewrite Hs in H. discriminate.
  - intros H. now destruct (status a).
Qed.


End ConfigurationPath.


Section CompletionPath.

Variable deepEqual : JValue -> JValue -> bool.
Variable postprocess :
  CompletionRequest -> CompletionResponse -> CompletionResponse.
Variable Auth_create : JValue -> Auth.
Variable uuid : nat -> string.
Variable cacheBound : nat.

(** X15.  A completion call that fails or is cancelled never reaches the
    cache: the failure goes to the caller as it is, the cache keeps its
    content, and after a cancelled call the agent is exactly as it was
    when the call was sent. *)
Theorem failed_completion_is_not_cached
  (a : TabbyAgent) (request : CompletionRequest) (error : ApiFailure) :
  let settled :=
    getCompletions_settled postprocess cacheBound a request (rejected error) in
  fst settled = rejected error /\
  completionCache (snd settled) = completionCache a /\
  (isCancelled error = true -> snd settled = a).
Proof.
  cbv zeta. unfold getCompletions_settled. cbn [fst snd]. repeat split.
  - apply (callApi_settled_frame a (@rejected CompletionResponse error)).
  - intros H. cbn. now rewrite H.
Qed.

(** X16.  The completion cache is written by one step only, the success
    of a completion call: every other step, a failed completion
    included, leaves the cache as it is. *)
Theorem cache_written_only_by_completions (a : TabbyAgent) (s : Step) :
  storesCompletion s = false ->
  completionCache (step deepEqual postprocess Auth_create uuid cacheBound a s)
  = completionCache a.
Proof.
  intros Hs.
  apply step_preserves
    with (P := fun x => completionCache x = completionCache a);
    try (intros; agent_cbn; assumption).
  - intros a' s' _ H.
    destruct (changeStatus_frame a' s') as (_ & _ & _ & Hc & _).
    now rewrite Hc.
  - intros a' merged H. agent_cbn. unfold applyConfig. agent_cbn.
    now destruct (negb (jvalue_eqb _ _)).
  - rewrite Hs. discriminate.
  - reflexivity.
Qed.

(** X17.  [getCompletions] itself, before any call settles, never
    changes the status, the configuration, the client, the Auth or the
    cache, and it sends at most one request: the completion call, with
    the language of the request, the segments of [createSegments] and
    the user of the Auth. *)
Theorem getCompletions_sends_at_most_one_request
  (a : TabbyAgent) (request : CompletionRequest) :
  let a' := snd (getCompletions uuid a request) in
  status a' = status a /\
  config a' = config a /\
  api a' = api a /\
  auth a' = auth a /\
  completionCache a' = completionCache a /\
  (trace a' = trace a \/
   trace a'
   = trace a
       ++ [Request (api a)
             (completion (language request) (createSegments request)
                (user (auth a)))]).
Proof.
  cbv zeta. unfold getCompletions.
  destruct (status a) eqn:E;
    try (destruct (cache_has _ _); [|destruct (isBlank _)]);
    agent_cbn; repeat split; auto.
Qed.

End CompletionPath.

Lemma failed_completion_is_not_cached_witness :
  snd (sampleSettled
         (snd (sampleGetCompletions readyAgent sampleRequest))
         sampleRequest (rejected errorCancelled))
  = snd (sampleGetCompletions readyAgent sampleRequest).
Proof.
  exact (proj2 (proj2 (failed_completion_is_not_cached samplePostprocess 9
                         (snd (sampleGetCompletions readyAgent sampleRequest))
                         sampleRequest errorCancelled))
           eq_refl).
Defined.

Lemma cache_written_only_by_completions_witness :
  completionCache
    (sampleStep readyAgent
       (do_getCompletions_settled sampleRequest (rejected error500)))
  = completionCache readyAgent.
Proof.
  exact (cache_written_only_by_completions jvalue_eqb samplePostprocess
           sampleAuth sampleUuid 9 readyAgent
           (do_getCompletions_settled sampleRequest (rejected error500))
           eq_refl).
Defined.





End Invariants.
